(** * Client authentication of a validator node: plenum/server/client_authn.py

    A shallow embedding of the three classes of the module

      - [ClientAuthNr]  the interface: [authenticate], [addClient], [getVerkey];
      - [NaclAuthNr]    the signature check, on top of an abstract [getVerkey];
      - [SimpleAuthNr]  the in-memory registry [self.clients].

    Python exceptions are values of the type [exn]; a method is a function from
    the state of the object to the state afterwards and either the exception it
    raised or the value it returned. *)

From Stdlib Require Import ZArith NArith.
From Stdlib.Strings Require Import Ascii Byte.
From stdpp Require Import base option list strings gmap fin_maps pretty.

Local Open Scope string_scope.

(** ** Python values *)

(** The values a request field, an identifier, a signature, a verkey or a role
    holds: [None], a bool, an int or a str. *)
Inductive Value : Type :=
  | VNone
  | VBool (b : bool)
  | VInt (z : Z)
  | VStr (s : string).

(** [bool(v)]: what [not v] tests. *)
Definition truthy (v : Value) : bool :=
  match v with
  | VNone => false
  | VBool b => b
  | VInt z => negb (z =? 0)%Z
  | VStr s => negb (String.eqb s "")
  end.

(** A message: [Dict], from field names to values. *)
Abbreviation Msg := (gmap string Value).

(** A raw byte string ([bytes]). *)
Abbreviation bytes := (list byte).

(** Modelled from the spec: the field name [f.SIG.nm] of plenum.common.types,
    which is not among the sources; the message schema names the field
    [signature]. *)
Definition f_SIG : string := "signature".

(** Modelled from the spec: the field name [f.IDENTIFIER.nm] of
    plenum.common.types; the message schema names the field [identifier]. *)
Definition f_IDENTIFIER : string := "identifier".

(** Modelled from the spec: the field name [f.REQ_ID.nm] of
    plenum.common.types; the concrete scenario has the request number in
    [reqId]. *)
Definition f_REQ_ID : string := "reqId".

(** ** Exceptions *)

(** The exceptions of the module, with the arguments they are constructed
    with; [cause] is the [__cause__] that [raise ... from ex] records. *)
#[warnings="-register-all"]
Inductive exn : Type :=
  | MissingSignature (identifier reqId : Value)
  | EmptySignature (identifier reqId : Value)
  | MissingIdentifier (identifier reqId : Value)
  | EmptyIdentifier (identifier reqId : Value)
  | InvalidSignatureFormat (cause : option exn)
  | UnknownIdentifier (identifier : Value)
  | InvalidSignature
  | InvalidIdentifier
  | CouldNotAuthenticate (cause : option exn)
  | KeyError (key : string)
  | OtherException (name : string).

(** Modelled from the spec: the class hierarchy of plenum.common.exceptions,
    which is not among the sources. The kinds of the error taxonomy propagate
    to the caller unchanged, which the handler [except SigningException] alone
    can do for them: they are subclasses of [SigningException]. The docstring
    of [ClientAuthNr.authenticate] promises an exception of type
    [SigningException] for every failure, so [CouldNotAuthenticate] is one too,
    and so is [InvalidIdentifier], imported along with them. [KeyError] and the
    other exceptions of the interpreter and of the libraries are not. *)
Definition isSigningException (e : exn) : bool :=
  match e with
  | KeyError _ | OtherException _ => false
  | _ => true
  end.

Definition isKeyError (e : exn) : bool :=
  match e with
  | KeyError _ => true
  | _ => false
  end.

(** [except Exception]: every value of [exn] is an instance of [Exception]. *)
Definition isException (e : exn) : bool := true.

(** The seven protocol kinds of the error taxonomy. *)
Definition isSpecificKind (e : exn) : bool :=
  match e with
  | MissingSignature _ _ | EmptySignature _ _
  | MissingIdentifier _ _ | EmptyIdentifier _ _
  | InvalidSignatureFormat _ | UnknownIdentifier _ | InvalidSignature => true
  | _ => false
  end.

(** ** State and exceptions *)

(** A computation over a state [S]: the state afterwards, and the exception
    raised or the value returned. *)
Definition M (S A : Type) : Type := S → S * (exn + A).

Definition ret {S A} (a : A) : M S A := λ st, (st, inr a).

Definition bind {S A B} (m : M S A) (k : A → M S B) : M S B :=
  λ st, match m st with
        | (st', inl e) => (st', inl e)
        | (st', inr a) => k a st'
        end.

Definition raise {S A} (e : exn) : M S A := λ st, (st, inl e).

(** Reading and updating the state. *)
Definition gets {S A} (f : S → A) : M S A := λ st, (st, inr (f st)).
Definition modify {S} (f : S → S) : M S unit := λ st, (f st, inr ()).

(** A call of a function that has no access to the object. *)
Definition call {S A} (r : exn + A) : M S A := λ st, (st, r).

(** [try: body except C1: h1 except C2: h2 ...]: the first clause whose class
    the exception is an instance of handles it; an exception raised by a
    handler is not handled again by this statement. *)
Definition try_except {S A} (body : M S A)
    (handlers : list ((exn → bool) * (exn → M S A))) : M S A :=
  λ st, match body st with
        | (st', inl e) =>
            match List.find (λ h, fst h e) handlers with
            | Some h => snd h e st'
            | None => (st', inl e)
            end
        | r => r
        end.

#[global] Instance M_ret {S} : MRet (M S) := @ret S.
#[global] Instance M_bind {S} : MBind (M S) := λ A B k m, bind m k.

(** [msg[k]] raises [KeyError]; [msg.get(k)] returns [None]. *)
Definition getitem {S} (msg : Msg) (k : string) : M S Value :=
  match msg !! k with
  | Some v => ret v
  | None => raise (KeyError k)
  end.

Definition get (msg : Msg) (k : string) : Value := default VNone (msg !! k).

(** ** The collaborators *)

(** The functions the module imports and calls: [base58.b58decode],
    [serializeForSig] of plenum.common.signing, and [DidVerifier] of
    plenum.common.verifier with its method [verify]. None is among the
    sources. Each returns a value or raises; none is handed the
    authenticator. *)
Record Collaborators : Type := {
  Verifier : Type;
  b58decode : Value → exn + bytes;
  signing_serializeForSig : Msg → exn + bytes;
  DidVerifier : Value → Value → exn + Verifier;
  verify : Verifier → bytes → bytes → exn + bool;
}.

(** Modelled from the spec: the contract of the Canonical Serializer,
    [serializeForSig] of plenum.common.signing, which is not among the
    sources: canonicalization never includes the signature field, and is a
    function of the remaining content of the message. *)
Definition excludes_signature (serializer : Msg → exn + bytes) : Prop :=
  ∀ msg, serializer msg = serializer (delete f_SIG msg).

(** ** NaclAuthNr *)

Section NaclAuthNr.
Context {Self : Type}.
Variable env : Collaborators.
(** The abstract method. *)
Variable getVerkey : Value → M Self Value.

Definition serializeForSig (msg : Msg) : M Self bytes :=
  call (signing_serializeForSig env msg).

Definition authenticate (msg : Msg) (identifier signature : Value)
  : M Self Value :=
  try_except
    (signature ←
       (if negb (truthy signature) then
          try_except
            (signature ← getitem msg f_SIG;
             if negb (truthy signature)
             then raise (EmptySignature (get msg f_IDENTIFIER)
                                        (get msg f_REQ_ID))
             else mret signature)
            [(isKeyError,
              λ _, raise (MissingSignature (get msg f_IDENTIFIER)
                                           (get msg f_REQ_ID)))]
        else mret signature);
     identifier ←
       (if negb (truthy identifier) then
          try_except
            (identifier ← getitem msg f_IDENTIFIER;
             if negb (truthy identifier)
             then raise (EmptyIdentifier VNone (get msg f_REQ_ID))
             else mret identifier)
            [(isKeyError,
              λ _, raise (MissingIdentifier identifier
                                            (get msg f_REQ_ID)))]
        else mret identifier);
     sig ← try_except (call (b58decode env signature))
             [(isException, λ ex, raise (InvalidSignatureFormat (Some ex)))];
     ser ← serializeForSig msg;
     verkey ← getVerkey identifier;
     vr ← call (DidVerifier env verkey identifier);
     isVerified ← call (verify env vr sig ser);
     if negb isVerified then raise InvalidSignature else mret identifier)
    [(isSigningException, λ e, raise e);
     (isException, λ ex, raise (CouldNotAuthenticate (Some ex)))].

(** *** The flow, step by step

    The same method read as the sequence of steps it performs, to compare
    [authenticate] with. *)

(** What the two handlers of the outer [try] make of an exception of the
    body. *)
Definition boundary (e : exn) : exn :=
  if isSigningException e then e else CouldNotAuthenticate (Some e).

(** The steps after the resolution of the fields, on a signature and an
    identifier already resolved; [m] is the mapping handed to the
    serializer. *)
Definition verification (m : Msg) (signature identifier : Value)
  : M Self Value :=
  λ st,
    match b58decode env signature with
    | inl ex => (st, inl (InvalidSignatureFormat (Some ex)))
    | inr sig =>
      match signing_serializeForSig env m with
      | inl ex => (st, inl (boundary ex))
      | inr ser =>
        match getVerkey identifier st with
        | (st', inl ex) => (st', inl (boundary ex))
        | (st', inr verkey) =>
          match DidVerifier env verkey identifier with
          | inl ex => (st', inl (boundary ex))
          | inr vr =>
            match verify env vr sig ser with
            | inl ex => (st', inl (boundary ex))
            | inr true => (st', inr identifier)
            | inr false => (st', inl InvalidSignature)
            end
          end
        end
      end
    end.
End NaclAuthNr.

(** The two-tier rule of the resolution of a field: the supplied argument if
    it is non-empty, else the field of the message, which is absent, empty or
    the value resolved. *)
Inductive resolution : Type :=
  | Absent
  | Empty
  | Resolved (v : Value).

Definition two_tier (supplied : Value) (field : option Value) : resolution :=
  if truthy supplied then Resolved supplied
  else match field with
       | None => Absent
       | Some v => if truthy v then Resolved v else Empty
       end.

(** ** SimpleAuthNr *)

Module SimpleAuthNr.

(** The object and the log of the module: [self.clients], typed
    [Dict[str, Dict]] by the constructor, and the messages handed to
    [logger.error]. *)
Record State : Type := {
  clients : gmap string (gmap string Value);
  logged : list string;
}.

(** [__init__], the log being empty. *)
Definition init : State := {| clients := ∅; logged := [] |}.

Definition logger_error (text : string) : M State unit :=
  modify (λ st,
    {| clients := clients st; logged := (logged st ++ [text])%list |}).

(** [d.get(k)] on [self.clients]: its keys are of type [str], so that a
    key of another type is not found. *)
Definition dict_get {V} (d : gmap string V) (k : Value) : option V :=
  match k with
  | VStr s => d !! s
  | _ => None
  end.

(** [bool(nym)] for the result of [self.clients.get]: [None] and the empty
    dict are falsy. *)
Definition truthy_nym (nym : option (gmap string Value)) : bool :=
  match nym with
  | None => false
  | Some d => negb (Nat.eqb (size d) 0)
  end.

(** The identifier is a key of [self.clients], a [str]; the verkey and the
    role are stored as they come. *)
Definition addClient (identifier : string) (verkey role : Value)
  : M State unit :=
  present ← gets (λ st, bool_decide (is_Some (clients st !! identifier)));
  _ ← (if present : bool then logger_error "client already added"
       else mret ());
  modify (λ st,
    {| clients := <[identifier := {[ "verkey" := verkey; "role" := role ]}]>
                    (clients st);
       logged := logged st |}).

Definition getVerkey (identifier : Value) : M State Value :=
  nym ← gets (λ st, dict_get (clients st) identifier);
  if negb (truthy_nym nym) then raise (UnknownIdentifier identifier)
  else match nym with
       | Some d => mret (get d "verkey")
       | None => raise (OtherException "AttributeError")
       end.

(** [authenticate] as [SimpleAuthNr] inherits it. *)
Definition authenticate (env : Collaborators) :=
  authenticate (Self := State) env getVerkey.

(** The registry after a sequence of registrations on a new object. *)
Definition registered (calls : list (string * Value * Value)) : State :=
  foldl (λ st c, (addClient c.1.1 c.1.2 c.2 st).1) init calls.

End SimpleAuthNr.

(** ** Concrete collaborators

    Stand-ins for the imported functions, for running the methods on
    concrete requests. *)

Module Base58.

(** [base58.b58decode] of the third-party package base58, as the package
    documents it: the Bitcoin alphabet, a big-endian number, one zero byte
    for every leading ['1']; a character outside the alphabet makes
    [alphabet.index] raise [ValueError], and an argument that is not a
    string has no [decode]. *)
Definition alphabet : list ascii :=
  String.list_ascii_of_string
    "123456789ABCDEFGHJKLMNPQRSTUVWXYZabcdefghijkmnopqrstuvwxyz".

Fixpoint index (c : ascii) (l : list ascii) : option N :=
  match l with
  | [] => None
  | a :: l => if Ascii.eqb a c then Some 0%N else N.succ <$> index c l
  end.

Fixpoint lstrip_ones (v : list ascii) : list ascii :=
  match v with
  | a :: v' => if Ascii.eqb a "1" then lstrip_ones v' else v
  | [] => []
  end.

Fixpoint b58decode_int (v : list ascii) (acc : N) : option N :=
  match v with
  | [] => Some acc
  | c :: v => i ← index c alphabet; b58decode_int v (acc * 58 + i)%N
  end.

(** The loop [while acc > 0: acc, mod = divmod(acc, 256)], most significant
    byte first; a number of [n] base-58 digits has at most [n] bytes. *)
Fixpoint to_bytes (fuel : nat) (acc : N) (result : bytes) : bytes :=
  match fuel with
  | O => result
  | S fuel =>
      if (acc =? 0)%N then result
      else to_bytes fuel (acc / 256)%N
             (default x00 (Byte.of_N (acc mod 256)%N) :: result)
  end.

Definition b58decode (v : Value) : exn + bytes :=
  match v with
  | VStr s =>
      let v := String.list_ascii_of_string s in
      let origlen := length v in
      let v := lstrip_ones v in
      let newlen := length v in
      match b58decode_int v 0%N with
      | Some acc => inr (replicate (origlen - newlen) x00
                           ++ to_bytes newlen acc [])%list
      | None => inl (OtherException "ValueError")
      end
  | _ => inl (OtherException "AttributeError")
  end.

End Base58.

Module Canonical.

Definition str (v : Value) : string :=
  match v with
  | VNone => "None"
  | VBool true => "True"
  | VBool false => "False"
  | VInt z => pretty z
  | VStr s => s
  end.

(** Modelled from the spec: the Canonical Serializer, [serializeForSig] of
    plenum.common.signing, which is not among the sources. The spec fixes
    that it returns a byte sequence, that canonicalization never includes
    the signature field, that it is a deterministic function of the
    remaining content of the message, whatever the order of insertion, and
    that all the fields other than the signature take part. Here: the
    fields other than [signature], as [name:value], in the order of the map,
    joined by [|]. *)
Definition serializeForSig (msg : Msg) : exn + bytes :=
  inr (String.list_byte_of_string
         (String.concat "|"
            ((λ kv, kv.1 +:+ ":" +:+ str kv.2)
               <$> map_to_list (delete f_SIG msg)))).

End Canonical.

Module Checksum.

(** A keyed checksum in the place of the cryptographic signature: the
    signature of a payload is the one byte that sums the bytes of the key
    and of the payload. *)
Definition sum_bytes (l : bytes) : N :=
  foldr (λ b acc, (Byte.to_N b + acc)%N) 0%N l.

Definition sign (key : string) (payload : bytes) : bytes :=
  [default x00
     (Byte.of_N ((sum_bytes (String.list_byte_of_string key)
                  + sum_bytes payload)
                 mod 256)%N)].

(** Modelled from the spec: the constructor of the Signature Verifier,
    [DidVerifier] of plenum.common.verifier, which is not among the sources.
    The spec fixes that it takes the public key and the identifier, and
    that it may raise for a malformed key: here, for a verkey that is not a
    non-empty string. *)
Definition DidVerifier (verkey identifier : Value) : exn + string :=
  match verkey with
  | VStr key => if String.eqb key "" then inl (OtherException "AssertionError")
                else inr key
  | _ => inl (OtherException "AssertionError")
  end.

(** Modelled from the spec: the method [verify] of the Signature Verifier.
    The spec fixes that it answers with a boolean whether the signature is
    valid for the signed bytes under the key, and does not raise on a
    signature that is merely invalid. *)
Definition verify (key : string) (sig ser : bytes) : exn + bool :=
  inr (bool_decide (Byte.to_N <$> sig = Byte.to_N <$> sign key ser)).

End Checksum.

(** The collaborators of the concrete runs. *)
Definition demo : Collaborators := {|
  Verifier := string;
  b58decode := Base58.b58decode;
  signing_serializeForSig := Canonical.serializeForSig;
  DidVerifier := Checksum.DidVerifier;
  verify := Checksum.verify;
|}.

(** The same collaborators, the serializer being handed the message with
    its signature field already taken out. *)
Definition demo_excluding : Collaborators := {|
  Verifier := string;
  b58decode := Base58.b58decode;
  signing_serializeForSig :=
    λ msg, Canonical.serializeForSig (delete f_SIG msg);
  DidVerifier := Checksum.DidVerifier;
  verify := Checksum.verify;
|}.

(** A registry with the one client [Did1]. *)
Definition one_client : SimpleAuthNr.State :=
  SimpleAuthNr.registered [("Did1", VStr "key1", VNone)].

Definition request (signature : Value) : Msg :=
  {[ "identifier" := VStr "Did1"; "reqId" := VInt 1; "op" := VStr "x";
     "signature" := signature ]}.

(** A request of a client that was never registered, and a request without
    an identifier. *)
Definition request_of_stranger (signature : Value) : Msg :=
  {[ "identifier" := VStr "Did2"; "reqId" := VInt 1; "op" := VStr "x";
     "signature" := signature ]}.

Definition request_without_identifier (signature : Value) : Msg :=
  {[ "reqId" := VInt 1; "op" := VStr "x"; "signature" := signature ]}.

(** The error or the pair of values that the resolution of the two fields
    ends with: the signature first, then the identifier. *)
Definition resolve_fields (msg : Msg) (identifier signature : Value)
  : exn + (Value * Value) :=
  match two_tier signature (msg !! f_SIG) with
  | Absent => inl (MissingSignature (get msg f_IDENTIFIER) (get msg f_REQ_ID))
  | Empty => inl (EmptySignature (get msg f_IDENTIFIER) (get msg f_REQ_ID))
  | Resolved s =>
      match two_tier identifier (msg !! f_IDENTIFIER) with
      | Absent => inl (MissingIdentifier identifier (get msg f_REQ_ID))
      | Empty => inl (EmptyIdentifier VNone (get msg f_REQ_ID))
      | Resolved i => inr (s, i)
      end
  end.

(** The exception at the root of a chain of causes. *)
Fixpoint root_cause (e : exn) : exn :=
  match e with
  | InvalidSignatureFormat (Some c) => root_cause c
  | CouldNotAuthenticate (Some c) => root_cause c
  | _ => e
  end.

(** An identifier that one of the registrations [calls] was made for. *)
Definition passed_to_addClient (calls : list (string * Value * Value))
    (identifier : Value) : Prop :=
  ∃ s, identifier = VStr s ∧ s ∈ (λ c, c.1.1) <$> calls.

(** ** The methods NaclAuthNr declares for itself

    [NaclAuthNr.addClient] and [NaclAuthNr.getVerkey] have the body [pass];
    [ClientAuthNr] has no metaclass [ABCMeta], so that the decorator
    [abstractmethod] keeps nobody from creating a [NaclAuthNr] and calling
    them: each returns [None] and leaves the object alone. *)

Module NaclAuthNr.

Definition addClient {Self} (identifier : string) (verkey role : Value)
  : M Self Value :=
  mret VNone.

Definition getVerkey {Self} (identifier : Value) : M Self Value :=
  mret VNone.

(** [authenticate] on an object of the class itself. *)
Definition authenticate {Self} (env : Collaborators) :=
  authenticate (Self := Self) env getVerkey.

End NaclAuthNr.

(** ** Sequences of calls on a SimpleAuthNr *)

(** A call of one of the three methods of the object. *)
Inductive method_call : Type :=
  | Call_addClient (identifier : string) (verkey role : Value)
  | Call_getVerkey (identifier : Value)
  | Call_authenticate (env : Collaborators) (msg : Msg)
      (identifier signature : Value).

(** The state a call leaves, whether it returns or raises. *)
Definition perform (st : SimpleAuthNr.State) (c : method_call)
  : SimpleAuthNr.State :=
  match c with
  | Call_addClient identifier verkey role =>
      (SimpleAuthNr.addClient identifier verkey role st).1
  | Call_getVerkey identifier => (SimpleAuthNr.getVerkey identifier st).1
  | Call_authenticate env msg identifier signature =>
      (SimpleAuthNr.authenticate env msg identifier signature st).1
  end.

(** The state of a new object after a sequence of calls. *)
Definition history (calls : list method_call) : SimpleAuthNr.State :=
  foldl perform SimpleAuthNr.init calls.

(** The registrations among the calls, in their order. *)
Definition registrations (calls : list method_call)
  : list (string * Value * Value) :=
  omap (λ c, match c with
             | Call_addClient identifier verkey role =>
                 Some (identifier, verkey, role)
             | _ => None
             end) calls.

(** * Properties *)

Ltac unfold_monad :=
  unfold try_except, mbind, M_bind, bind, mret, M_ret, ret, raise, call,
    gets, modify, getitem in *.

(** A closed equation between two runs, by evaluation. *)
Ltac run := vm_compute; reflexivity.

Section Flow.
Context {Self : Type}.
Variable env : Collaborators.
Variable getVerkey : Value → M Self Value.

Lemma boundary_signing e :
  isSigningException e = true → boundary e = e.
Proof. unfold boundary. by intros ->. Qed.

Lemma boundary_other e :
  isSigningException e = false → boundary e = CouldNotAuthenticate (Some e).
Proof. unfold boundary. by intros ->. Qed.

Lemma specific_is_signing e :
  isSpecificKind e = true → isSigningException e = true.
Proof. by destruct e. Qed.

(** The method is the resolution of the two fields followed by the steps
    of the verification. *)
Lemma authenticate_steps msg identifier signature st :
  authenticate env getVerkey msg identifier signature st =
  match resolve_fields msg identifier signature with
  | inl e => (st, inl e)
  | inr (s, i) => verification env getVerkey msg s i st
  end.
Proof.
  unfold authenticate, resolve_fields, two_tier, verification,
    serializeForSig, boundary.
  unfold_monad.
  destruct (truthy signature) eqn:Hsig; simpl.
  2: destruct (msg !! f_SIG) as [s|] eqn:Hs; simpl; [|done].
  2: destruct (truthy s) eqn:Hts; simpl; [|done].
  all: destruct (truthy identifier) eqn:Hid; simpl.
  all: try (destruct (msg !! f_IDENTIFIER) as [i|] eqn:Hi; simpl; [|done];
            destruct (truthy i) eqn:Hti; simpl; [|done]).
  all: destruct (b58decode env _) as [ex|raw]; simpl; [done|].
  all: destruct (signing_serializeForSig env msg) as [ex|ser]; simpl;
    [by destruct (isSigningException ex)|].
  all: destruct (getVerkey _ st) as [st' [ex|verkey]]; simpl;
    [by destruct (isSigningException ex)|].
  all: destruct (DidVerifier env verkey _) as [ex|vr]; simpl;
    [by destruct (isSigningException ex)|].
  all: destruct (verify env vr raw ser) as [ex|[]]; simpl;
    [by destruct (isSigningException ex)|done|done].
Qed.
End Flow.

Section Authenticate.
Context {Self : Type}.
Variable env : Collaborators.
Variable getVerkey : Value → M Self Value.

Lemma resolve_fields_resolved msg identifier signature s i :
  two_tier signature (msg !! f_SIG) = Resolved s →
  two_tier identifier (msg !! f_IDENTIFIER) = Resolved i →
  resolve_fields msg identifier signature = inr (s, i).
Proof. unfold resolve_fields. by intros -> ->. Qed.

Lemma authenticate_resolved msg identifier signature s i st :
  two_tier signature (msg !! f_SIG) = Resolved s →
  two_tier identifier (msg !! f_IDENTIFIER) = Resolved i →
  authenticate env getVerkey msg identifier signature st
  = verification env getVerkey msg s i st.
Proof.
  intros Hs Hi. rewrite authenticate_steps.
  by rewrite (resolve_fields_resolved _ _ _ _ _ Hs Hi).
Qed.

(** C1. The signed payload is the serialization of the message without its
    signature field. [authenticate] hands the message to [serializeForSig]
    as it is, and the serializer, which by its contract never includes the
    signature field, guarantees the exclusion: once the two fields are
    resolved, [authenticate] is the verification over the serialization of
    the message with the field removed, and what the field holds has no
    part in the payload. *)
Theorem signed_payload_excludes_signature msg identifier signature s i st :
  excludes_signature (signing_serializeForSig env) →
  two_tier signature (msg !! f_SIG) = Resolved s →
  two_tier identifier (msg !! f_IDENTIFIER) = Resolved i →
  authenticate env getVerkey msg identifier signature st
  = verification env getVerkey (delete f_SIG msg) s i st
  ∧ serializeForSig env msg st
    = serializeForSig env (delete f_SIG msg) st
  ∧ (∀ v, signing_serializeForSig env (<[f_SIG := v]> msg)
          = signing_serializeForSig env (delete f_SIG msg)).
Proof.
  intros Hser Hs Hi. split; [|split].
  - rewrite (authenticate_resolved _ _ _ _ _ _ Hs Hi).
    unfold verification. by rewrite <- (Hser msg).
  - unfold serializeForSig, call. by rewrite <- (Hser msg).
  - intros v. by rewrite (Hser (<[f_SIG := v]> msg)), delete_insert_eq.
Qed.

(** C2, as amended. The signature first, and the identifier once the
    signature is resolved, are resolved by the two-tier rule, and the first
    resolution that fails decides the kind: a signature neither supplied
    nor in the message fails with [MissingSignature], an empty signature
    field with [EmptySignature]; with the signature resolved, likewise the
    identifier with [MissingIdentifier] and [EmptyIdentifier]; with both
    resolved the verification runs. *)
Theorem authenticate_field_resolution msg identifier signature st :
  match two_tier signature (msg !! f_SIG) with
  | Absent =>
      authenticate env getVerkey msg identifier signature st
      = (st, inl (MissingSignature (get msg f_IDENTIFIER) (get msg f_REQ_ID)))
  | Empty =>
      authenticate env getVerkey msg identifier signature st
      = (st, inl (EmptySignature (get msg f_IDENTIFIER) (get msg f_REQ_ID)))
  | Resolved s =>
      match two_tier identifier (msg !! f_IDENTIFIER) with
      | Absent =>
          authenticate env getVerkey msg identifier signature st
          = (st, inl (MissingIdentifier identifier (get msg f_REQ_ID)))
      | Empty =>
          authenticate env getVerkey msg identifier signature st
          = (st, inl (EmptyIdentifier VNone (get msg f_REQ_ID)))
      | Resolved i =>
          authenticate env getVerkey msg identifier signature st
          = verification env getVerkey msg s i st
      end
  end.
Proof.
  rewrite authenticate_steps. unfold resolve_fields.
  destruct (two_tier signature _); [done..|].
  by destruct (two_tier identifier _).
Qed.

(** C3, as amended. A [SigningException] that arises in [authenticate], the
    seven protocol kinds among them, reaches the caller unchanged: the
    failures of the resolution, and those of the serialization, the key
    lookup, the construction of the verifier and the verification. An
    exception of the decoder, of whatever class, is replaced by
    [InvalidSignatureFormat] with that exception as its cause, not by
    [CouldNotAuthenticate]. An exception of the later steps that is not a
    [SigningException] is wrapped into [CouldNotAuthenticate], which
    therefore never wraps one of the protocol kinds. *)
Theorem authenticate_failure_boundary msg identifier signature st :
  let run := authenticate env getVerkey msg identifier signature st in
  (∀ e, resolve_fields msg identifier signature = inl e →
     run = (st, inl e) ∧ isSpecificKind e = true)
  ∧ (∀ s i, resolve_fields msg identifier signature = inr (s, i) →
     (∀ ex, b58decode env s = inl ex →
        run = (st, inl (InvalidSignatureFormat (Some ex))))
     ∧ (∀ sig, b58decode env s = inr sig →
        (∀ ex, signing_serializeForSig env msg = inl ex →
           run = (st, inl (boundary ex)))
        ∧ (∀ ser, signing_serializeForSig env msg = inr ser →
           (∀ st' ex, getVerkey i st = (st', inl ex) →
              run = (st', inl (boundary ex)))
           ∧ (∀ st' verkey, getVerkey i st = (st', inr verkey) →
              (∀ ex, DidVerifier env verkey i = inl ex →
                 run = (st', inl (boundary ex)))
              ∧ (∀ vr, DidVerifier env verkey i = inr vr →
                 (∀ ex, verify env vr sig ser = inl ex →
                    run = (st', inl (boundary ex)))
                 ∧ (verify env vr sig ser = inr false →
                    run = (st', inl InvalidSignature)))))))
  ∧ (∀ e, isSigningException e = true → boundary e = e)
  ∧ (∀ e, isSpecificKind e = true → boundary e = e)
  ∧ (∀ e, isSigningException e = false →
       boundary e = CouldNotAuthenticate (Some e) ∧ isSpecificKind e = false).
Proof.
  intros run. subst run. rewrite authenticate_steps.
  split; [|split; [|split; [|split]]].
  - intros e He. rewrite He. split; [done|].
    unfold resolve_fields in He.
    destruct (two_tier signature _); simplify_eq; [done..|].
    by destruct (two_tier identifier _); simplify_eq.
  - intros s i ->. unfold verification. split.
    { by intros ex ->. }
    intros sig ->. split.
    { by intros ex ->. }
    intros ser ->. split.
    { by intros st' ex ->. }
    intros st' verkey ->. split.
    { by intros ex ->. }
    intros vr ->. split.
    { by intros ex ->. }
    by intros ->.
  - apply boundary_signing.
  - intros e He. by apply boundary_signing, specific_is_signing.
  - intros e He. split; [by apply boundary_other|]. by destruct e.
Qed.

(** C5, as amended. When the two fields are resolved and the decoder
    raises on the resolved signature, [authenticate] fails with
    [InvalidSignatureFormat], the decoder's exception being its cause. *)
Theorem malformed_signature_is_invalid_format
    msg identifier signature s i ex st :
  two_tier signature (msg !! f_SIG) = Resolved s →
  two_tier identifier (msg !! f_IDENTIFIER) = Resolved i →
  b58decode env s = inl ex →
  authenticate env getVerkey msg identifier signature st
  = (st, inl (InvalidSignatureFormat (Some ex))).
Proof.
  intros Hs Hi Hex. rewrite (authenticate_resolved _ _ _ _ _ _ Hs Hi).
  unfold verification. by rewrite Hex.
Qed.

(** C6. For a message that passes the resolution of the fields, the
    decoding, the serialization and the resolution of the key, a negative
    answer of the verifier makes [authenticate] fail with
    [InvalidSignature], and with a positive answer it does not fail: it
    returns the identifier. *)
Theorem verifier_answer_decides
    msg identifier signature s i sig ser verkey vr (answer : bool) st st' :
  two_tier signature (msg !! f_SIG) = Resolved s →
  two_tier identifier (msg !! f_IDENTIFIER) = Resolved i →
  b58decode env s = inr sig →
  signing_serializeForSig env msg = inr ser →
  getVerkey i st = (st', inr verkey) →
  DidVerifier env verkey i = inr vr →
  verify env vr sig ser = inr answer →
  authenticate env getVerkey msg identifier signature st
  = (st', if answer then inr i else inl InvalidSignature).
Proof.
  intros Hs Hi Hsig Hser Hkey Hvr Hans.
  rewrite (authenticate_resolved _ _ _ _ _ _ Hs Hi).
  unfold verification.
  rewrite Hsig, Hser, Hkey, Hvr, Hans. by destruct answer.
Qed.

Lemma authenticate_returns_resolved msg identifier signature st st' r :
  authenticate env getVerkey msg identifier signature st = (st', inr r) →
  ∃ s, resolve_fields msg identifier signature = inr (s, r).
Proof.
  rewrite authenticate_steps.
  destruct (resolve_fields _ _ _) as [e|[s i]]; [done|].
  unfold verification. intros Hrun. exists s.
  repeat case_match; by simplify_eq.
Qed.

(** C9. A non-empty signature or identifier that is supplied is the one
    the verification runs on, whatever the message holds in that field; on
    success the value returned is the resolved identifier, the supplied one
    if it is non-empty and the identifier field of the message otherwise;
    an empty argument is as good as the field of the message, which is
    looked up in its place. *)
Theorem supplied_arguments_override msg identifier signature st :
  (truthy signature = true →
     ∀ i, two_tier identifier (msg !! f_IDENTIFIER) = Resolved i →
       authenticate env getVerkey msg identifier signature st
       = verification env getVerkey msg signature i st)
  ∧ (truthy identifier = true →
     ∀ s, two_tier signature (msg !! f_SIG) = Resolved s →
       authenticate env getVerkey msg identifier signature st
       = verification env getVerkey msg s identifier st)
  ∧ (∀ st' r,
       authenticate env getVerkey msg identifier signature st
       = (st', inr r) →
       (truthy identifier = true ∧ r = identifier)
       ∨ (truthy identifier = false
          ∧ msg !! f_IDENTIFIER = Some r ∧ truthy r = true))
  ∧ (truthy signature = false →
     ∀ s, msg !! f_SIG = Some s →
       authenticate env getVerkey msg identifier signature st
       = authenticate env getVerkey msg identifier s st)
  ∧ (truthy identifier = false →
     ∀ i, msg !! f_IDENTIFIER = Some i →
       authenticate env getVerkey msg identifier signature st
       = authenticate env getVerkey msg i signature st).
Proof.
  split; [|split; [|split; [|split]]].
  - intros Hsig i Hi. apply authenticate_resolved; [|done].
    unfold two_tier. by rewrite Hsig.
  - intros Hid s Hs. apply authenticate_resolved; [done|].
    unfold two_tier. by rewrite Hid.
  - intros st' r Hrun.
    destruct (authenticate_returns_resolved _ _ _ _ _ _ Hrun) as [s Hres].
    unfold resolve_fields, two_tier in Hres.
    destruct (truthy identifier) eqn:Hid.
    + left. split; [done|].
      repeat case_match; by simplify_eq.
    + right. split; [done|].
      repeat case_match; by simplify_eq.
  - intros Hsig s Hs. rewrite !authenticate_steps.
    unfold resolve_fields, two_tier. rewrite Hsig, Hs.
    by destruct (truthy s).
  - intros Hid i Hi. rewrite !authenticate_steps.
    unfold resolve_fields, two_tier. rewrite Hid, Hi.
    by destruct (truthy i).
Qed.
End Authenticate.

Section Registry.
Import SimpleAuthNr.

Implicit Types (st : State) (calls : list (string * Value * Value)).

Lemma addClient_run identifier verkey role st :
  addClient identifier verkey role st =
  ({| clients := <[identifier := {[ "verkey" := verkey; "role" := role ]}]>
                   (clients st);
      logged := if bool_decide (is_Some (clients st !! identifier))
                then (logged st ++ ["client already added"])%list
                else logged st |}, inr ()).
Proof.
  unfold addClient, logger_error. unfold_monad.
  by destruct (bool_decide _).
Qed.

Lemma getVerkey_same_state identifier st : (getVerkey identifier st).1 = st.
Proof.
  unfold getVerkey. unfold_monad. simpl.
  destruct (truthy_nym _); simpl; [|done].
  by destruct (dict_get _ _).
Qed.

Lemma getVerkey_absent identifier st :
  dict_get (clients st) identifier = None →
  getVerkey identifier st = (st, inl (UnknownIdentifier identifier)).
Proof. unfold getVerkey. unfold_monad. by intros ->. Qed.

Lemma getVerkey_record s verkey role st :
  clients st !! s = Some {[ "verkey" := verkey; "role" := role ]} →
  getVerkey (VStr s) st = (st, inr verkey).
Proof.
  intros Hrec. unfold getVerkey. unfold_monad. simpl. rewrite Hrec. simpl.
  assert (size (<["verkey" := verkey]> ({[ "role" := role ]} : Msg)) ≠ 0)
    as Hsize.
  { rewrite map_size_ne_0_lookup. exists "verkey".
    rewrite lookup_insert_eq. by eexists. }
  apply Nat.eqb_neq in Hsize. rewrite Hsize. simpl.
  unfold get. by rewrite lookup_insert_eq.
Qed.

Lemma registered_snoc calls identifier verkey role :
  registered (calls ++ [(identifier, verkey, role)]) =
  (addClient identifier verkey role (registered calls)).1.
Proof. unfold registered. by rewrite foldl_app. Qed.

(** The registry holds, for an identifier, the record of its last
    registration, and nothing for an identifier never registered. *)
Lemma registered_lookup calls s :
  clients (registered calls) !! s =
  (λ c, {[ "verkey" := c.1.2; "role" := c.2 ]})
    <$> last (filter (λ c, c.1.1 = s) calls).
Proof.
  induction calls as [|[[s' verkey] role] calls IH] using rev_ind; [done|].
  rewrite registered_snoc, addClient_run. simpl.
  rewrite filter_app, filter_cons, filter_nil. simpl.
  case_decide as Hs; simplify_eq.
  - rewrite lookup_insert_eq. by rewrite last_snoc.
  - rewrite lookup_insert_ne by done. by rewrite app_nil_r.
Qed.

Lemma registered_never calls identifier :
  ¬ passed_to_addClient calls identifier →
  dict_get (clients (registered calls)) identifier = None.
Proof.
  intros Hnever. destruct identifier as [| | |s]; try done.
  unfold dict_get. rewrite registered_lookup.
  destruct (last _) as [c|] eqn:Hlast; [|done].
  exfalso. apply Hnever. exists s. split; [done|].
  apply last_Some_elem_of, list_elem_of_filter in Hlast as [<- Hin].
  by apply (list_elem_of_fmap_2 (λ c, c.1.1)).
Qed.

Lemma registered_passed calls identifier :
  passed_to_addClient calls identifier →
  ∃ s verkey role,
    identifier = VStr s ∧ (s, verkey, role) ∈ calls ∧
    clients (registered calls) !! s
    = Some {[ "verkey" := verkey; "role" := role ]}.
Proof.
  intros (s & -> & Hin).
  apply list_elem_of_fmap in Hin as (c & -> & Hin).
  pose proof (registered_lookup calls c.1.1) as Hlookup.
  destruct (last _) as [[[s' verkey] role]|] eqn:Hlast.
  - pose proof Hlast as Hel.
    apply last_Some_elem_of, list_elem_of_filter in Hel as [Hs Hel].
    simpl in Hs. subst s'. by exists c.1.1, verkey, role.
  - apply last_None in Hlast.
    assert (c ∈ filter (λ c' : string * Value * Value, c'.1.1 = c.1.1) calls)
      as Hc by by apply list_elem_of_filter.
    rewrite Hlast in Hc. by apply elem_of_nil in Hc.
Qed.
End Registry.

Section RegistryProperties.
Import SimpleAuthNr.

Implicit Types (st : State) (calls : list (string * Value * Value)).

(** C4, as amended. For an identifier never passed to [addClient],
    [getVerkey] fails with [UnknownIdentifier], and so does, with that very
    exception unwrapped, a call of [authenticate] that resolves to such an
    identifier, provided that its signature decodes and its message
    serializes: the two steps that come before the lookup of the key. *)
Theorem unregistered_identifier_is_unknown
    env calls msg identifier signature i :
  ¬ passed_to_addClient calls i →
  getVerkey i (registered calls)
  = (registered calls, inl (UnknownIdentifier i))
  ∧ (∀ s sig ser,
       two_tier signature (msg !! f_SIG) = Resolved s →
       two_tier identifier (msg !! f_IDENTIFIER) = Resolved i →
       b58decode env s = inr sig →
       signing_serializeForSig env msg = inr ser →
       SimpleAuthNr.authenticate env msg identifier signature
         (registered calls)
       = (registered calls, inl (UnknownIdentifier i))
       ∧ root_cause (UnknownIdentifier i) = UnknownIdentifier i).
Proof.
  intros Hnever.
  pose proof (getVerkey_absent _ _ (registered_never _ _ Hnever)) as Hkey.
  split; [done|].
  intros s sig ser Hs Hi Hsig Hser. split; [|done].
  unfold SimpleAuthNr.authenticate.
  rewrite (authenticate_resolved _ _ _ _ _ _ _ _ Hs Hi).
  unfold verification. by rewrite Hsig, Hser, Hkey.
Qed.

(** C7. [addClient] never fails; afterwards the registry maps the
    identifier to the record of this call, whether the identifier was
    registered before or not, the other identifiers are as before, and
    [getVerkey] returns the verkey of the call; the one trace of an earlier
    registration is a line in the log. *)
Theorem addClient_upsert identifier verkey role st :
  ∃ st',
    addClient identifier verkey role st = (st', inr ())
    ∧ clients st' !! identifier
      = Some {[ "verkey" := verkey; "role" := role ]}
    ∧ (∀ other, other ≠ identifier →
         clients st' !! other = clients st !! other)
    ∧ getVerkey (VStr identifier) st' = (st', inr verkey)
    ∧ logged st'
      = if bool_decide (is_Some (clients st !! identifier))
        then (logged st ++ ["client already added"])%list
        else logged st.
Proof.
  eexists. split; [apply addClient_run|]. simpl.
  split; [by rewrite lookup_insert_eq|].
  split; [by intros other Hne; rewrite lookup_insert_ne|].
  split; [|done].
  apply getVerkey_record with role. simpl. by rewrite lookup_insert_eq.
Qed.

(** C8. [authenticate] leaves the state as it found it, the registry
    [clients] in it, whatever the message and the arguments, and whether it
    returns or raises. *)
Theorem authenticate_leaves_registry env msg identifier signature st :
  (SimpleAuthNr.authenticate env msg identifier signature st).1 = st.
Proof.
  unfold SimpleAuthNr.authenticate. rewrite authenticate_steps.
  destruct (resolve_fields _ _ _) as [e|[s i]]; [done|].
  unfold verification.
  pose proof (getVerkey_same_state i st) as Hkey.
  destruct (getVerkey i st) as [st' r]. simpl in Hkey. subst st'.
  repeat case_match; by simplify_eq.
Qed.

(** C10. On a registry built by calls of [addClient], [getVerkey] raises
    [UnknownIdentifier] exactly for the identifiers never registered, and
    raises nothing else; for a registered identifier the record stored is
    not empty and [getVerkey] returns its verkey, and the verkey of a
    registration is returned even when it is [None] or the empty string. *)
Theorem getVerkey_unknown_iff_never_registered calls identifier :
  (getVerkey identifier (registered calls)
   = (registered calls, inl (UnknownIdentifier identifier))
   ↔ ¬ passed_to_addClient calls identifier)
  ∧ (∀ e, (getVerkey identifier (registered calls)).2 = inl e →
       e = UnknownIdentifier identifier)
  ∧ (passed_to_addClient calls identifier →
     ∃ s verkey role,
       identifier = VStr s ∧ (s, verkey, role) ∈ calls
       ∧ clients (registered calls) !! s
         = Some {[ "verkey" := verkey; "role" := role ]}
       ∧ ({[ "verkey" := verkey; "role" := role ]} : Msg) ≠ ∅
       ∧ getVerkey identifier (registered calls)
         = (registered calls, inr verkey))
  ∧ (∀ s verkey role,
       getVerkey (VStr s) (registered (calls ++ [(s, verkey, role)]))
       = (registered (calls ++ [(s, verkey, role)]), inr verkey)).
Proof.
  assert (passed_to_addClient calls identifier →
          ∃ s verkey role,
            identifier = VStr s ∧ (s, verkey, role) ∈ calls
            ∧ clients (registered calls) !! s
              = Some {[ "verkey" := verkey; "role" := role ]}
            ∧ getVerkey identifier (registered calls)
              = (registered calls, inr verkey)) as Hpassed.
  { intros Hin.
    destruct (registered_passed _ _ Hin) as (s & verkey & role & -> & ? & ?).
    exists s, verkey, role. repeat split; [done..|].
    by apply getVerkey_record with role. }
  split; [|split; [|split]].
  - split.
    + intros Hkey Hin.
      destruct (Hpassed Hin) as (? & ? & ? & _ & _ & _ & Hret). congruence.
    + intros Hnever. by apply getVerkey_absent, registered_never.
  - intros e. unfold getVerkey. unfold_monad. simpl.
    destruct (dict_get _ identifier) as [d|]; simpl; [|congruence].
    destruct (size d =? 0)%nat; simpl; congruence.
  - intros Hin.
    destruct (Hpassed Hin) as (s & verkey & role & ? & ? & ? & ?).
    exists s, verkey, role. repeat split; [done..| |done].
    apply insert_non_empty.
  - intros s verkey role. apply getVerkey_record with role.
    rewrite registered_lookup, filter_app, filter_cons, filter_nil. simpl.
    rewrite decide_True by done. by rewrite last_snoc.
Qed.
End RegistryProperties.

(** * Concrete runs *)

(** [Did2] is not among the clients registered. *)
Lemma stranger_never_registered :
  ¬ passed_to_addClient [("Did1", VStr "key1", VNone)] (VStr "Did2").
Proof.
  intros (s & Hs & Hin). simplify_eq.
  apply list_elem_of_fmap in Hin as (c & Hc & Hin).
  apply list_elem_of_singleton in Hin. by subst c.
Defined.

(** The serializer of the concrete runs keeps to the contract. *)
Lemma Canonical_excludes_signature :
  excludes_signature Canonical.serializeForSig.
Proof.
  intros msg. unfold Canonical.serializeForSig.
  by rewrite delete_delete_eq.
Qed.

(** The request signed with ["3"], the signature of its serialization
    without the signature field: it is accepted, as is the same request
    whatever else its signature field holds when that signature is
    supplied. *)
Lemma signed_payload_excludes_signature_witness :
  (excludes_signature (signing_serializeForSig demo)
   ∧ two_tier VNone (request (VStr "3") !! f_SIG) = Resolved (VStr "3")
   ∧ two_tier VNone (request (VStr "3") !! f_IDENTIFIER)
     = Resolved (VStr "Did1"))
  ∧ authenticate demo SimpleAuthNr.getVerkey (request (VStr "3"))
      VNone VNone one_client
    = verification demo SimpleAuthNr.getVerkey
        (delete f_SIG (request (VStr "3"))) (VStr "3") (VStr "Did1")
        one_client
  ∧ verification demo SimpleAuthNr.getVerkey
      (delete f_SIG (request (VStr "3"))) (VStr "3") (VStr "Did1") one_client
    = (one_client, inr (VStr "Did1")).
Proof.
  split; [split; [apply Canonical_excludes_signature|split; run]|].
  split; [|run].
  apply (signed_payload_excludes_signature demo SimpleAuthNr.getVerkey
           (request (VStr "3")) VNone VNone (VStr "3") (VStr "Did1")
           one_client Canonical_excludes_signature); run.
Defined.

(** C2, the claim as stated fails. Neither message has an identifier field
    and no identifier is supplied; the first has no signature and the second
    an empty one, and [authenticate] fails with [MissingSignature] and with
    [EmptySignature], not with [MissingIdentifier]. *)
Lemma identifier_absent_behind_signature :
  two_tier VNone ((∅ : Msg) !! f_IDENTIFIER) = Absent
  ∧ SimpleAuthNr.authenticate demo ∅ VNone VNone one_client
    = (one_client, inl (MissingSignature VNone VNone))
  ∧ two_tier VNone
      (({[ "reqId" := VInt 1; "signature" := VStr "" ]} : Msg)
         !! f_IDENTIFIER)
    = Absent
  ∧ SimpleAuthNr.authenticate demo
      {[ "reqId" := VInt 1; "signature" := VStr "" ]} VNone VNone one_client
    = (one_client, inl (EmptySignature VNone (VInt 1))).
Proof. split; [run|split; [run|split; run]]. Qed.

(** C3, the claim as stated fails. The decoder raises [ValueError], which is
    none of the protocol kinds, on a signature with characters outside the
    alphabet; [authenticate] fails with [InvalidSignatureFormat], not with
    [CouldNotAuthenticate]. *)
Lemma decoder_error_becomes_invalid_format :
  b58decode demo (VStr "0OIl") = inl (OtherException "ValueError")
  ∧ isSpecificKind (OtherException "ValueError") = false
  ∧ SimpleAuthNr.authenticate demo (request (VStr "0OIl")) VNone VNone
      one_client
    = (one_client,
       inl (InvalidSignatureFormat (Some (OtherException "ValueError")))).
Proof. split; [run|split; run]. Qed.

(** The decoding clause, on the request with the signature ["0OIl"]. *)
Lemma authenticate_failure_boundary_witness :
  resolve_fields (request (VStr "0OIl")) VNone VNone
  = inr (VStr "0OIl", VStr "Did1")
  ∧ b58decode demo (VStr "0OIl") = inl (OtherException "ValueError")
  ∧ authenticate demo SimpleAuthNr.getVerkey (request (VStr "0OIl"))
      VNone VNone one_client
    = (one_client,
       inl (InvalidSignatureFormat (Some (OtherException "ValueError")))).
Proof.
  split; [run|split; [run|]].
  destruct (authenticate_failure_boundary demo SimpleAuthNr.getVerkey
              (request (VStr "0OIl")) VNone VNone one_client)
    as (_ & Hsteps & _).
  destruct (Hsteps (VStr "0OIl") (VStr "Did1")) as [Hdecode _]; [run|].
  apply Hdecode. run.
Defined.

(** C4, the claim as stated fails. The request resolves to [Did2], which was
    never passed to [addClient], and its signature is not base58:
    [authenticate] fails with [InvalidSignatureFormat], whose cause is the
    [ValueError] of the decoder. *)
Lemma stranger_with_malformed_signature :
  ¬ passed_to_addClient [("Did1", VStr "key1", VNone)] (VStr "Did2")
  ∧ two_tier VNone (request_of_stranger (VStr "0OIl") !! f_IDENTIFIER)
    = Resolved (VStr "Did2")
  ∧ SimpleAuthNr.authenticate demo (request_of_stranger (VStr "0OIl"))
      VNone VNone (SimpleAuthNr.registered [("Did1", VStr "key1", VNone)])
    = (SimpleAuthNr.registered [("Did1", VStr "key1", VNone)],
       inl (InvalidSignatureFormat (Some (OtherException "ValueError"))))
  ∧ root_cause (InvalidSignatureFormat (Some (OtherException "ValueError")))
    = OtherException "ValueError".
Proof. split; [apply stranger_never_registered|split; [run|split; run]]. Qed.

(** The same stranger with a signature that decodes. *)
Lemma unregistered_identifier_is_unknown_witness :
  ¬ passed_to_addClient [("Did1", VStr "key1", VNone)] (VStr "Did2")
  ∧ SimpleAuthNr.getVerkey (VStr "Did2")
      (SimpleAuthNr.registered [("Did1", VStr "key1", VNone)])
    = (SimpleAuthNr.registered [("Did1", VStr "key1", VNone)],
       inl (UnknownIdentifier (VStr "Did2")))
  ∧ SimpleAuthNr.authenticate demo (request_of_stranger (VStr "3"))
      VNone VNone (SimpleAuthNr.registered [("Did1", VStr "key1", VNone)])
    = (SimpleAuthNr.registered [("Did1", VStr "key1", VNone)],
       inl (UnknownIdentifier (VStr "Did2"))).
Proof.
  split; [apply stranger_never_registered|].
  destruct (unregistered_identifier_is_unknown demo
              [("Did1", VStr "key1", VNone)] (request_of_stranger (VStr "3"))
              VNone VNone (VStr "Did2") stranger_never_registered)
    as [Hkey Hauth].
  split; [exact Hkey|].
  by destruct (Hauth (VStr "3") [x02]
                 (String.list_byte_of_string
                    "op:x|identifier:Did2|reqId:1"))
    as [Hrun _]; [run..|].
Defined.

(** C5, the claim as stated fails. The resolved signature of the request is
    not base58, and the request has no identifier: [authenticate] fails with
    [MissingIdentifier]. *)
Lemma malformed_signature_without_identifier :
  two_tier VNone (request_without_identifier (VStr "0OIl") !! f_SIG)
  = Resolved (VStr "0OIl")
  ∧ b58decode demo (VStr "0OIl") = inl (OtherException "ValueError")
  ∧ SimpleAuthNr.authenticate demo (request_without_identifier (VStr "0OIl"))
      VNone VNone one_client
    = (one_client, inl (MissingIdentifier VNone (VInt 1))).
Proof. split; [run|split; run]. Qed.

(** The same signature in a request that names its sender. *)
Lemma malformed_signature_is_invalid_format_witness :
  (two_tier VNone (request (VStr "0OIl") !! f_SIG) = Resolved (VStr "0OIl")
   ∧ two_tier VNone (request (VStr "0OIl") !! f_IDENTIFIER)
     = Resolved (VStr "Did1")
   ∧ b58decode demo (VStr "0OIl") = inl (OtherException "ValueError"))
  ∧ authenticate demo SimpleAuthNr.getVerkey (request (VStr "0OIl"))
      VNone VNone one_client
    = (one_client,
       inl (InvalidSignatureFormat (Some (OtherException "ValueError")))).
Proof.
  split; [split; [run|split; run]|].
  apply (malformed_signature_is_invalid_format demo SimpleAuthNr.getVerkey
           (request (VStr "0OIl")) VNone VNone (VStr "0OIl") (VStr "Did1"));
    run.
Defined.

(** A request with the right signature, and one with a wrong one. *)
Lemma verifier_answer_decides_witness :
  authenticate demo_excluding SimpleAuthNr.getVerkey (request (VStr "3"))
    VNone VNone one_client
  = (one_client, inr (VStr "Did1"))
  ∧ authenticate demo_excluding SimpleAuthNr.getVerkey (request (VStr "4"))
      VNone VNone one_client
    = (one_client, inl InvalidSignature).
Proof.
  split.
  - apply (verifier_answer_decides demo_excluding SimpleAuthNr.getVerkey
             (request (VStr "3")) VNone VNone (VStr "3") (VStr "Did1")
             [x02]
             (String.list_byte_of_string "op:x|identifier:Did1|reqId:1")
             (VStr "key1") "key1" true one_client one_client); run.
  - apply (verifier_answer_decides demo_excluding SimpleAuthNr.getVerkey
             (request (VStr "4")) VNone VNone (VStr "4") (VStr "Did1")
             [x03]
             (String.list_byte_of_string "op:x|identifier:Did1|reqId:1")
             (VStr "key1") "key1" false one_client one_client); run.
Defined.

(** A supplied identifier used in place of the message's own, and an
    empty one that gives way to it. *)
Lemma supplied_arguments_override_witness :
  authenticate demo_excluding SimpleAuthNr.getVerkey
    (request_of_stranger (VStr "0OIl")) (VStr "Did1") (VStr "3") one_client
  = verification demo_excluding SimpleAuthNr.getVerkey
      (request_of_stranger (VStr "0OIl")) (VStr "3") (VStr "Did1") one_client
  ∧ authenticate demo_excluding SimpleAuthNr.getVerkey
      (request (VStr "3")) (VStr "") VNone one_client
    = authenticate demo_excluding SimpleAuthNr.getVerkey
        (request (VStr "3")) (VStr "Did1") VNone one_client.
Proof.
  destruct (supplied_arguments_override demo_excluding SimpleAuthNr.getVerkey
              (request_of_stranger (VStr "0OIl")) (VStr "Did1") (VStr "3")
              one_client) as (_ & Hidentifier & _).
  destruct (supplied_arguments_override demo_excluding SimpleAuthNr.getVerkey
              (request (VStr "3")) (VStr "") VNone one_client)
    as (_ & _ & _ & _ & Hempty).
  split.
  - apply Hidentifier; run.
  - apply Hempty; run.
Defined.

(** A stranger, and a client registered with the verkey [None]. *)
Lemma getVerkey_unknown_iff_never_registered_witness :
  SimpleAuthNr.getVerkey (VStr "Did2")
    (SimpleAuthNr.registered [("Did1", VStr "key1", VNone)])
  = (SimpleAuthNr.registered [("Did1", VStr "key1", VNone)],
     inl (UnknownIdentifier (VStr "Did2")))
  ∧ SimpleAuthNr.getVerkey (VStr "Did3")
      (SimpleAuthNr.registered
         ([("Did1", VStr "key1", VNone)] ++ [("Did3", VNone, VNone)]))
    = (SimpleAuthNr.registered
         ([("Did1", VStr "key1", VNone)] ++ [("Did3", VNone, VNone)]),
       inr VNone).
Proof.
  destruct (getVerkey_unknown_iff_never_registered
              [("Did1", VStr "key1", VNone)] (VStr "Did2"))
    as (Hiff & _ & _ & Hlast).
  split.
  - apply Hiff, stranger_never_registered.
  - apply Hlast.
Defined.

(** * Further properties of the flow *)

Section AuthenticateMore.
Context {Self : Type}.
Variable env : Collaborators.
Variable getVerkey : Value → M Self Value.

Lemma boundary_is_signing e : isSigningException (boundary e) = true.
Proof. unfold boundary. by destruct (isSigningException e) eqn:He. Qed.

Lemma resolve_fields_inr msg identifier signature s i :
  resolve_fields msg identifier signature = inr (s, i) →
  two_tier signature (msg !! f_SIG) = Resolved s
  ∧ two_tier identifier (msg !! f_IDENTIFIER) = Resolved i.
Proof.
  unfold resolve_fields. intros Hres.
  destruct (two_tier signature _); simplify_eq.
  by destruct (two_tier identifier _); simplify_eq.
Qed.

Lemma two_tier_resolved_truthy supplied field v :
  two_tier supplied field = Resolved v → truthy v = true.
Proof.
  unfold two_tier. intros Hres.
  destruct (truthy supplied) eqn:Hs; [by simplify_eq|].
  destruct field as [w|]; [|done].
  by destruct (truthy w) eqn:Hw; simplify_eq.
Qed.

(** The steps behind a value returned. *)
Lemma authenticate_inr_steps msg identifier signature st st' r :
  authenticate env getVerkey msg identifier signature st = (st', inr r) →
  truthy r = true
  ∧ ∃ s sig ser verkey vr,
      two_tier signature (msg !! f_SIG) = Resolved s
      ∧ two_tier identifier (msg !! f_IDENTIFIER) = Resolved r
      ∧ b58decode env s = inr sig
      ∧ signing_serializeForSig env msg = inr ser
      ∧ getVerkey r st = (st', inr verkey)
      ∧ DidVerifier env verkey r = inr vr
      ∧ verify env vr sig ser = inr true.
Proof.
  rewrite authenticate_steps.
  destruct (resolve_fields _ _ _) as [e|[s i]] eqn:Hres; [done|].
  apply resolve_fields_inr in Hres as [Hs Hi].
  unfold verification.
  destruct (b58decode env s) as [?|sig] eqn:Hsig; [done|].
  destruct (signing_serializeForSig env msg) as [?|ser] eqn:Hser; [done|].
  destruct (getVerkey i st) as [st1 [?|verkey]] eqn:Hkey; [done|].
  destruct (DidVerifier env verkey i) as [?|vr] eqn:Hvr; [done|].
  destruct (verify env vr sig ser) as [?|[]] eqn:Hans; [done| |done].
  intros [= <- <-]. split; [by eapply two_tier_resolved_truthy|].
  by exists s, sig, ser, verkey, vr.
Qed.

(** X1. [authenticate] returns only after every step has succeeded: the
    value returned is the resolved identifier, which is not empty, the
    resolved signature decoded, the message serialized, [getVerkey] returned
    a verkey for that identifier, the verifier was built from it and
    answered [True] for the decoded signature and the serialization. *)
Theorem authenticate_success_sound msg identifier signature st st' r :
  authenticate env getVerkey msg identifier signature st = (st', inr r) →
  truthy r = true
  ∧ ∃ s sig ser verkey vr,
      two_tier signature (msg !! f_SIG) = Resolved s
      ∧ two_tier identifier (msg !! f_IDENTIFIER) = Resolved r
      ∧ b58decode env s = inr sig
      ∧ signing_serializeForSig env msg = inr ser
      ∧ getVerkey r st = (st', inr verkey)
      ∧ DidVerifier env verkey r = inr vr
      ∧ verify env vr sig ser = inr true.
Proof. apply authenticate_inr_steps. Qed.

(** X2. Whatever goes wrong, in the message, in a collaborator or in
    [getVerkey], the exception that leaves [authenticate] is an instance of
    [SigningException]: the [KeyError] of a missing field and the exceptions
    of the libraries never reach the caller as they are. *)
Theorem authenticate_raises_signing_exceptions
    msg identifier signature st st' e :
  authenticate env getVerkey msg identifier signature st = (st', inl e) →
  isSigningException e = true ∧ isKeyError e = false.
Proof.
  intros Hrun.
  assert (isSigningException e = true) as He; [|split; [done|by destruct e]].
  revert Hrun. rewrite authenticate_steps. unfold resolve_fields.
  destruct (two_tier signature _); [by intros [= <- <-]..|].
  destruct (two_tier identifier _); [by intros [= <- <-]..|].
  unfold verification.
  repeat case_match; intros [= <- <-]; by rewrite ?boundary_is_signing.
Qed.

(** X3. In a subclass that supplies [getVerkey] and inherits
    [serializeForSig], as [SimpleAuthNr] does, [authenticate] touches the
    state of the object through [getVerkey] alone, which it calls once, on
    the resolved identifier, after the decoding and the serialization: the
    state it leaves is the state it found or the one that call leaves. With
    a [getVerkey] that only reads, it only reads. *)
Theorem authenticate_state_effect msg identifier signature st :
  ((authenticate env getVerkey msg identifier signature st).1 = st
   ∨ ∃ s i sig ser,
       two_tier signature (msg !! f_SIG) = Resolved s
       ∧ two_tier identifier (msg !! f_IDENTIFIER) = Resolved i
       ∧ b58decode env s = inr sig
       ∧ signing_serializeForSig env msg = inr ser
       ∧ (authenticate env getVerkey msg identifier signature st).1
         = (getVerkey i st).1)
  ∧ ((∀ i, (getVerkey i st).1 = st) →
     (authenticate env getVerkey msg identifier signature st).1 = st).
Proof.
  rewrite authenticate_steps.
  destruct (resolve_fields _ _ _) as [e|[s i]] eqn:Hres;
    [by split; [left|]|].
  apply resolve_fields_inr in Hres as [Hs Hi].
  unfold verification.
  destruct (b58decode env s) as [?|sig] eqn:Hsig; [by split; [left|]|].
  destruct (signing_serializeForSig env msg) as [?|ser] eqn:Hser;
    [by split; [left|]|].
  assert ((match getVerkey i st with
           | (st', inl ex) => (st', inl (boundary ex))
           | (st', inr verkey) =>
               match DidVerifier env verkey i with
               | inl ex => (st', inl (boundary ex))
               | inr vr =>
                   match verify env vr sig ser with
                   | inl ex => (st', inl (boundary ex))
                   | inr true => (st', inr i)
                   | inr false => (st', inl InvalidSignature)
                   end
               end
           end).1 = (getVerkey i st).1) as Hstate.
  { destruct (getVerkey i st) as [st1 [?|verkey]]; [done|].
    by repeat case_match. }
  split.
  - right. by exists s, i, sig, ser.
  - intros Hread. by rewrite Hstate.
Qed.

(** X4. With a non-empty identifier and a non-empty signature supplied, the
    message counts through its serialization alone: two messages with the
    same serialization get the same answer, whatever their fields
    [identifier] and [signature] hold. *)
Theorem supplied_arguments_read_only_serialization
    msg msg' identifier signature st :
  truthy identifier = true →
  truthy signature = true →
  signing_serializeForSig env msg = signing_serializeForSig env msg' →
  authenticate env getVerkey msg identifier signature st
  = authenticate env getVerkey msg' identifier signature st.
Proof.
  intros Hid Hsig Hser.
  rewrite !(authenticate_resolved _ _ _ _ _ signature identifier);
    try (unfold two_tier; by rewrite ?Hid, ?Hsig).
  unfold verification. by rewrite Hser.
Qed.
End AuthenticateMore.

(** * Further properties of the registry *)

Section RegistryMore.
Import SimpleAuthNr.

Implicit Types (st : State) (calls : list (string * Value * Value)).

(** What [getVerkey] does is decided by the record of the identifier. *)
Lemma getVerkey_by_record identifier st st' :
  dict_get (clients st) identifier = dict_get (clients st') identifier →
  (getVerkey identifier st).2 = (getVerkey identifier st').2.
Proof.
  unfold getVerkey. unfold_monad. simpl. intros ->.
  destruct (truthy_nym _); simpl; [|done].
  by destruct (dict_get _ _).
Qed.

Lemma getVerkey_run identifier st :
  getVerkey identifier st = (st, (getVerkey identifier st).2).
Proof.
  pose proof (getVerkey_same_state identifier st) as Hst.
  destruct (getVerkey identifier st) as [st' r]. simpl in *. by subst.
Qed.

Lemma verification_by_record env m s i st st' :
  dict_get (clients st) i = dict_get (clients st') i →
  (verification env getVerkey m s i st).2
  = (verification env getVerkey m s i st').2.
Proof.
  intros Hrec. unfold verification.
  rewrite (getVerkey_run i st), (getVerkey_run i st').
  rewrite (getVerkey_by_record _ _ _ Hrec).
  by repeat case_match.
Qed.

Lemma getVerkey_returns identifier verkey st st' :
  getVerkey identifier st = (st', inr verkey) →
  ∃ s d, identifier = VStr s ∧ clients st !! s = Some d ∧ d ≠ ∅.
Proof.
  unfold getVerkey. unfold_monad. simpl.
  destruct identifier as [| | |s]; simpl; try done.
  destruct (clients st !! s) as [d|] eqn:Hd; simpl; [|done].
  destruct (size d =? 0)%nat eqn:Hsize; simpl; [done|].
  intros _. exists s, d. repeat split; [done|].
  intros ->. by rewrite map_size_empty in Hsize.
Qed.

(** [authenticate] hands back the state it was given. *)
Lemma authenticate_run env msg identifier signature st :
  SimpleAuthNr.authenticate env msg identifier signature st
  = (st, (SimpleAuthNr.authenticate env msg identifier signature st).2).
Proof.
  unfold SimpleAuthNr.authenticate. rewrite authenticate_steps.
  destruct (resolve_fields _ _ _) as [e|[s i]]; [done|].
  unfold verification. rewrite (getVerkey_run i st).
  by repeat case_match.
Qed.

(** X5. [authenticate] returns only identifiers of the registry: a string
    whose record is there and not empty. On a registry without clients, that
    of a new object, every call raises. *)
Theorem authenticate_returns_registered env msg identifier signature st :
  (∀ st' r,
     SimpleAuthNr.authenticate env msg identifier signature st = (st', inr r) →
     ∃ s d, r = VStr s ∧ clients st !! s = Some d ∧ d ≠ ∅)
  ∧ (clients st = ∅ →
     ∃ e, SimpleAuthNr.authenticate env msg identifier signature st
          = (st, inl e)).
Proof.
  assert (∀ st' r,
     SimpleAuthNr.authenticate env msg identifier signature st = (st', inr r) →
     ∃ s d, r = VStr s ∧ clients st !! s = Some d ∧ d ≠ ∅) as Hsound.
  { intros st' r Hrun.
    apply authenticate_inr_steps in Hrun
      as (_ & s & sig & ser & verkey & vr & _ & _ & _ & _ & Hkey & _).
    by eapply getVerkey_returns. }
  split; [done|].
  intros Hempty.
  pose proof (authenticate_run env msg identifier signature st) as Hst.
  destruct (SimpleAuthNr.authenticate env msg identifier signature st).2
    as [e|r] eqn:Hrun; [by exists e|].
  destruct (Hsound _ _ Hst) as (s & d & _ & Hd & _).
  by rewrite Hempty, lookup_empty in Hd.
Qed.
End RegistryMore.

Section Registrations.
Import SimpleAuthNr.

Implicit Types (st : State) (calls : list (string * Value * Value)).

Lemma addClient_state identifier verkey role st :
  (addClient identifier verkey role st).1 =
  {| clients := <[identifier := {[ "verkey" := verkey; "role" := role ]}]>
                  (clients st);
     logged := if bool_decide (is_Some (clients st !! identifier))
               then (logged st ++ ["client already added"])%list
               else logged st |}.
Proof. by rewrite addClient_run. Qed.

(** X6. The answer of [authenticate] for one identifier is not changed by
    the registration of another: unless the call resolves to the identifier
    being registered, it raises or returns the same before and after. *)
Theorem authenticate_ignores_other_clients
    env msg identifier signature other verkey role st :
  two_tier identifier (msg !! f_IDENTIFIER) ≠ Resolved (VStr other) →
  (SimpleAuthNr.authenticate env msg identifier signature
     (addClient other verkey role st).1).2
  = (SimpleAuthNr.authenticate env msg identifier signature st).2.
Proof.
  intros Hother. unfold SimpleAuthNr.authenticate.
  rewrite !authenticate_steps.
  destruct (resolve_fields _ _ _) as [e|[s i]] eqn:Hres; [done|].
  apply resolve_fields_inr in Hres as [_ Hi].
  apply verification_by_record. rewrite addClient_state. simpl.
  destruct i as [| | |id]; try done. simpl.
  apply lookup_insert_ne. congruence.
Qed.

(** X7. After a registration the check runs on the verkey just registered,
    whatever the registry held for the identifier before, an earlier verkey
    or nothing: [authenticate] is the verification with that verkey for the
    lookup of the key. *)
Theorem authenticate_uses_latest_registration
    env msg identifier signature s id verkey role st :
  two_tier signature (msg !! f_SIG) = Resolved s →
  two_tier identifier (msg !! f_IDENTIFIER) = Resolved (VStr id) →
  SimpleAuthNr.authenticate env msg identifier signature
    (addClient id verkey role st).1
  = verification env (λ _, mret verkey) msg s (VStr id)
      (addClient id verkey role st).1.
Proof.
  intros Hs Hi. unfold SimpleAuthNr.authenticate.
  rewrite (authenticate_resolved _ _ _ _ _ _ _ _ Hs Hi).
  unfold verification.
  rewrite (getVerkey_record id verkey role); [done|].
  rewrite addClient_state. simpl. by rewrite lookup_insert_eq.
Qed.

(** X8. Registrations of two different identifiers commute: in either order
    they leave the same registry and the same log. *)
Theorem addClient_commutes a verkey_a role_a b verkey_b role_b st :
  a ≠ b →
  (addClient b verkey_b role_b (addClient a verkey_a role_a st).1).1
  = (addClient a verkey_a role_a (addClient b verkey_b role_b st).1).1.
Proof.
  intros Hab. rewrite !addClient_state. simpl.
  rewrite !lookup_insert_ne by done. f_equal.
  - by apply insert_insert_ne.
  - by repeat case_bool_decide.
Qed.

(** X9. A second registration of an identifier replaces the record of the
    first and always logs the line [client already added]: the registry is
    the one the second call alone would give, and the log is the log of the
    first call with that one line more. *)
Theorem addClient_again identifier verkey1 role1 verkey2 role2 st :
  clients (addClient identifier verkey2 role2
             (addClient identifier verkey1 role1 st).1).1
  = clients (addClient identifier verkey2 role2 st).1
  ∧ logged (addClient identifier verkey2 role2
              (addClient identifier verkey1 role1 st).1).1
    = (logged (addClient identifier verkey1 role1 st).1
         ++ ["client already added"])%list.
Proof.
  rewrite !addClient_state. simpl. split.
  - apply insert_insert_eq.
  - rewrite lookup_insert_eq. by rewrite bool_decide_true.
Qed.

(** X10. Every registration either adds an identifier to the registry or
    adds a line to the log, never both and never neither: on an object built
    by registrations, the clients and the lines of the log together are as
    many as the calls. *)
Theorem registrations_are_counted calls identifier verkey role st :
  size (clients (addClient identifier verkey role st).1)
    + length (logged (addClient identifier verkey role st).1)
  = S (size (clients st) + length (logged st))
  ∧ size (clients (registered calls)) + length (logged (registered calls))
    = length calls.
Proof.
  assert (∀ i v r st',
    size (clients (addClient i v r st').1)
      + length (logged (addClient i v r st').1)
    = S (size (clients st') + length (logged st'))) as Hstep.
  { intros i v r st'. rewrite addClient_state. simpl.
    destruct (clients st' !! i) as [d|] eqn:Hd.
    - rewrite bool_decide_true by done.
      rewrite map_size_insert_Some by done.
      rewrite length_app. simpl. lia.
    - rewrite bool_decide_false by (by intros [? ?]).
      rewrite map_size_insert_None by done. lia. }
  split; [apply Hstep|].
  induction calls as [|[[i v] r] calls IH] using rev_ind; [done|].
  rewrite registered_snoc, Hstep, IH, length_app. simpl. lia.
Qed.
End Registrations.

Section Histories.
Import SimpleAuthNr.

Lemma history_snoc calls c :
  history (calls ++ [c]) = perform (history calls) c.
Proof. unfold history. by rewrite foldl_app. Qed.

Lemma perform_keeps st c s :
  is_Some (clients st !! s) → is_Some (clients (perform st c) !! s).
Proof.
  intros Hs. destruct c as [i v r|i|env msg i sg]; simpl.
  - rewrite addClient_state. simpl.
    destruct (decide (i = s)) as [->|Hne].
    + rewrite lookup_insert_eq. by eexists.
    + by rewrite lookup_insert_ne.
  - by rewrite getVerkey_same_state.
  - by rewrite authenticate_run.
Qed.

(** X11. Whatever sequence of calls of [addClient], [getVerkey] and
    [authenticate] is made on a new object, its state is the one the
    registrations among them build: the other two methods change nothing.
    Every record of the registry is the record of one of these
    registrations, with its two keys, and an identifier once in the registry
    stays in it. *)
Theorem history_is_its_registrations (calls more : list method_call) :
  history calls = registered (registrations calls)
  ∧ (∀ s d, clients (history calls) !! s = Some d →
       ∃ verkey role,
         d = {[ "verkey" := verkey; "role" := role ]}
         ∧ (s, verkey, role) ∈ registrations calls)
  ∧ (∀ s, is_Some (clients (history calls) !! s) →
       is_Some (clients (history (calls ++ more)) !! s)).
Proof.
  assert (∀ l, history l = registered (registrations l)) as Hreg.
  { induction l as [|c l IH] using rev_ind; [done|].
    rewrite history_snoc, IH. unfold registrations.
    rewrite omap_app. simpl.
    destruct c as [i v r|i|env msg i sg]; simpl.
    - by rewrite registered_snoc.
    - by rewrite app_nil_r, getVerkey_same_state.
    - by rewrite app_nil_r, authenticate_run. }
  split; [apply Hreg|split].
  - intros s d. rewrite Hreg, registered_lookup.
    destruct (last _) as [[[s' verkey] role]|] eqn:Hlast; [|done].
    intros [= <-]. exists verkey, role. split; [done|].
    apply last_Some_elem_of, list_elem_of_filter in Hlast as [Hs Hin].
    simpl in Hs. by subst s'.
  - intros s Hs.
    induction more as [|c more IH] using rev_ind; [by rewrite app_nil_r|].
    rewrite app_assoc, history_snoc. by apply perform_keeps.
Qed.
End Histories.

Section BaseClass.
Context {Self : Type}.
Variable env : Collaborators.

(** X12. An object of the class [NaclAuthNr] itself has no registry:
    [addClient] returns [None] and changes nothing, and [authenticate] builds
    the verifier from the verkey [None] for every identifier, so that its
    answer, once the fields are resolved, the signature is decoded and the
    message is serialized, is that of the verifier without a verkey; the
    lookup of the key never fails. *)
Theorem base_class_has_no_verkey
    msg identifier signature s i sig ser (st : Self) :
  two_tier signature (msg !! f_SIG) = Resolved s →
  two_tier identifier (msg !! f_IDENTIFIER) = Resolved i →
  b58decode env s = inr sig →
  signing_serializeForSig env msg = inr ser →
  (∀ id verkey role,
     NaclAuthNr.addClient id verkey role st = (st, inr VNone))
  ∧ NaclAuthNr.authenticate env msg identifier signature st
    = (st, match DidVerifier env VNone i with
           | inl ex => inl (boundary ex)
           | inr vr =>
               match verify env vr sig ser with
               | inl ex => inl (boundary ex)
               | inr true => inr i
               | inr false => inl InvalidSignature
               end
           end).
Proof.
  intros Hs Hi Hsig Hser. split; [done|].
  unfold NaclAuthNr.authenticate.
  rewrite (authenticate_resolved _ _ _ _ _ _ _ _ Hs Hi).
  unfold verification. rewrite Hsig, Hser.
  unfold NaclAuthNr.getVerkey. unfold_monad.
  by repeat case_match.
Qed.
End BaseClass.

(** * Concrete runs of the further properties *)

(** The request signed with ["3"] is accepted, and every step succeeded. *)
Lemma authenticate_success_sound_witness :
  authenticate demo_excluding SimpleAuthNr.getVerkey (request (VStr "3"))
    VNone VNone one_client
  = (one_client, inr (VStr "Did1"))
  ∧ truthy (VStr "Did1") = true
  ∧ ∃ s sig ser verkey vr,
      two_tier VNone (request (VStr "3") !! f_SIG) = Resolved s
      ∧ two_tier VNone (request (VStr "3") !! f_IDENTIFIER)
        = Resolved (VStr "Did1")
      ∧ b58decode demo_excluding s = inr sig
      ∧ signing_serializeForSig demo_excluding (request (VStr "3")) = inr ser
      ∧ SimpleAuthNr.getVerkey (VStr "Did1") one_client
        = (one_client, inr verkey)
      ∧ DidVerifier demo_excluding verkey (VStr "Did1") = inr vr
      ∧ verify demo_excluding vr sig ser = inr true.
Proof.
  split; [run|].
  apply (authenticate_success_sound demo_excluding SimpleAuthNr.getVerkey
           (request (VStr "3")) VNone VNone one_client one_client
           (VStr "Did1")).
  run.
Defined.

(** The exception for a signature that is not base58. *)
Lemma authenticate_raises_signing_exceptions_witness :
  authenticate demo SimpleAuthNr.getVerkey (request (VStr "0OIl"))
    VNone VNone one_client
  = (one_client,
     inl (InvalidSignatureFormat (Some (OtherException "ValueError"))))
  ∧ isSigningException
      (InvalidSignatureFormat (Some (OtherException "ValueError"))) = true
  ∧ isKeyError
      (InvalidSignatureFormat (Some (OtherException "ValueError"))) = false.
Proof.
  split; [run|].
  apply (authenticate_raises_signing_exceptions demo SimpleAuthNr.getVerkey
           (request (VStr "0OIl")) VNone VNone one_client one_client).
  run.
Defined.

(** With the [getVerkey] of [SimpleAuthNr], which only reads. *)
Lemma authenticate_state_effect_witness :
  (authenticate demo SimpleAuthNr.getVerkey (request (VStr "3"))
     VNone VNone one_client).1
  = one_client.
Proof.
  destruct (authenticate_state_effect demo SimpleAuthNr.getVerkey
              (request (VStr "3")) VNone VNone one_client) as [_ Hread].
  apply Hread. intros i. apply getVerkey_same_state.
Defined.

(** Two requests that differ in their signature field, with the serializer
    that leaves the field out. *)
Lemma supplied_arguments_read_only_serialization_witness :
  (truthy (VStr "Did1") = true
   ∧ truthy (VStr "3") = true
   ∧ signing_serializeForSig demo_excluding (request (VStr "3"))
     = signing_serializeForSig demo_excluding (request (VStr "0OIl")))
  ∧ authenticate demo_excluding SimpleAuthNr.getVerkey (request (VStr "3"))
      (VStr "Did1") (VStr "3") one_client
    = authenticate demo_excluding SimpleAuthNr.getVerkey
        (request (VStr "0OIl")) (VStr "Did1") (VStr "3") one_client.
Proof.
  split; [split; [run|split; run]|].
  apply (supplied_arguments_read_only_serialization demo_excluding
           SimpleAuthNr.getVerkey (request (VStr "3"))
           (request (VStr "0OIl")) (VStr "Did1") (VStr "3") one_client); run.
Defined.

(** The identifier returned is in the registry; a new object accepts
    nothing. *)
Lemma authenticate_returns_registered_witness :
  (∃ s d, VStr "Did1" = VStr s
          ∧ SimpleAuthNr.clients one_client !! s = Some d ∧ d ≠ ∅)
  ∧ ∃ e, SimpleAuthNr.authenticate demo_excluding (request (VStr "3"))
           VNone VNone SimpleAuthNr.init
         = (SimpleAuthNr.init, inl e).
Proof.
  split.
  - destruct (authenticate_returns_registered demo_excluding
                (request (VStr "3")) VNone VNone one_client) as [Hsound _].
    apply (Hsound one_client). run.
  - destruct (authenticate_returns_registered demo_excluding
                (request (VStr "3")) VNone VNone SimpleAuthNr.init)
      as [_ Hnew].
    apply Hnew. reflexivity.
Defined.

(** The registration of [Did2] and a request of [Did1]. *)
Lemma authenticate_ignores_other_clients_witness :
  two_tier VNone (request (VStr "3") !! f_IDENTIFIER)
  ≠ Resolved (VStr "Did2")
  ∧ (SimpleAuthNr.authenticate demo_excluding (request (VStr "3"))
       VNone VNone
       (SimpleAuthNr.addClient "Did2" (VStr "key2") VNone one_client).1).2
    = (SimpleAuthNr.authenticate demo_excluding (request (VStr "3"))
         VNone VNone one_client).2.
Proof.
  assert (two_tier VNone (request (VStr "3") !! f_IDENTIFIER)
          ≠ Resolved (VStr "Did2")) as Hother.
  { vm_compute. discriminate. }
  split; [exact Hother|].
  apply (authenticate_ignores_other_clients demo_excluding
           (request (VStr "3")) VNone VNone "Did2" (VStr "key2") VNone
           one_client Hother).
Defined.

(** [Did1] registered again, with another verkey. *)
Lemma authenticate_uses_latest_registration_witness :
  SimpleAuthNr.authenticate demo_excluding (request (VStr "3")) VNone VNone
    (SimpleAuthNr.addClient "Did1" (VStr "key2") VNone one_client).1
  = verification demo_excluding (λ _, mret (VStr "key2"))
      (request (VStr "3")) (VStr "3") (VStr "Did1")
      (SimpleAuthNr.addClient "Did1" (VStr "key2") VNone one_client).1.
Proof.
  apply (authenticate_uses_latest_registration demo_excluding
           (request (VStr "3")) VNone VNone (VStr "3") "Did1" (VStr "key2")
           VNone one_client); run.
Defined.

(** [Did1] and [Did2] on a new object, in the two orders. *)
Lemma addClient_commutes_witness :
  "Did1" ≠ "Did2"
  ∧ (SimpleAuthNr.addClient "Did2" (VStr "key2") VNone
       (SimpleAuthNr.addClient "Did1" (VStr "key1") VNone
          SimpleAuthNr.init).1).1
    = (SimpleAuthNr.addClient "Did1" (VStr "key1") VNone
         (SimpleAuthNr.addClient "Did2" (VStr "key2") VNone
            SimpleAuthNr.init).1).1.
Proof.
  assert ("Did1" ≠ "Did2") as Hne by discriminate.
  split; [exact Hne|].
  apply (addClient_commutes "Did1" (VStr "key1") VNone "Did2" (VStr "key2")
           VNone SimpleAuthNr.init Hne).
Defined.

(** A registration, a check and a lookup. *)
Lemma history_is_its_registrations_witness :
  is_Some
    (SimpleAuthNr.clients
       (history ([Call_addClient "Did1" (VStr "key1") VNone;
                  Call_authenticate demo (request (VStr "3")) VNone VNone]
                 ++ [Call_getVerkey (VStr "Did2")])) !! "Did1").
Proof.
  destruct (history_is_its_registrations
              [Call_addClient "Did1" (VStr "key1") VNone;
               Call_authenticate demo (request (VStr "3")) VNone VNone]
              [Call_getVerkey (VStr "Did2")]) as (_ & _ & Hstays).
  apply Hstays. vm_compute. by eexists.
Defined.

(** The request of [Did2] on an object of the base class: the verifier of
    the concrete runs cannot be built without a verkey. *)
Lemma base_class_has_no_verkey_witness :
  NaclAuthNr.authenticate demo (request_of_stranger (VStr "3")) VNone VNone ()
  = ((), inl (CouldNotAuthenticate (Some (OtherException "AssertionError")))).
Proof.
  destruct (base_class_has_no_verkey demo (request_of_stranger (VStr "3"))
              VNone VNone (VStr "3") (VStr "Did2") [x02]
              (String.list_byte_of_string
                 "op:x|identifier:Did2|reqId:1") ())
    as [_ Hrun]; [run..|].
  exact Hrun.
Defined.
